(** * The request gateway of [app/main.py]

    A shallow embedding of the Flask microservice: its five view functions
    ([health_check], [readiness_check], [users] for GET and POST,
    [get_cache]), the two collaborator handles they read, and the part of
    the dispatch layer that turns what a view returns or raises into an
    HTTP response.

    Collaborator calls and log lines are effects: a view is a computation
    in a small monad that threads the trace of effects performed so far and
    may raise a Python exception. *)

From stdpp Require Import base strings gmap list.
From Stdlib Require Import ZArith NArith Lia Ascii DecimalString DecimalN.

Local Open Scope string_scope.
Local Open Scope Z_scope.
Local Open Scope list_scope.
Set Warnings "-register-all".

(** ** JSON values

    What [jsonify] takes and [request.get_json()] gives: [None], booleans,
    integers, floats (carried as their IEEE-754 bits, never computed with),
    strings, lists and dicts.  A dict is kept as its items in insertion
    order. *)

Inductive json : Type :=
| JNull
| JBool (b : bool)
| JInt (n : Z)
| JFloat (bits : Z)
| JStr (s : string)
| JList (items : list json)
| JObj (items : list (string * json)).

(** [d[k]] on the items of a dict: the first item under key [k]. *)
Fixpoint field (k : string) (items : list (string * json)) : option json :=
  match items with
  | [] => None
  | (k', v) :: rest => if String.eqb k k' then Some v else field k rest
  end.

(** [j[k]] for a JSON value: defined on dicts only. *)
Definition member (k : string) (j : json) : option json :=
  match j with
  | JObj items => field k items
  | _ => None
  end.

(** ** Exceptions and outcomes *)

(** A raised exception object: what [str(e)] gives, and, for the
    [HTTPException]s of the dispatch layer, the status code it carries. *)
Record Exception : Type := mkException {
  http_code : option Z;
  message : string
}.

Definition str (e : Exception) : string := message e.

(** A client library error with the given message. *)
Definition Error (msg : string) : Exception := mkException None msg.

(** werkzeug's [BadRequest], raised by [request.get_json()] on a body that
    does not parse. *)
Definition BadRequest : Exception :=
  mkException (Some 400) "400 Bad Request: The browser (or proxy) sent a request that this server could not understand.".

Inductive Outcome (A : Type) : Type :=
| Return (a : A)
| Raise (e : Exception).
Arguments Return {A} a.
Arguments Raise {A} e.

(** ** Effects *)

Inductive Effect : Type :=
| RedisPing
| RedisGet (key : string)
| PgCursor
| CursorExecute (sql : string)
| CursorClose
| LogError (msg : string).

Definition is_redis_call (ef : Effect) : bool :=
  match ef with
  | RedisPing | RedisGet _ => true
  | _ => false
  end.

Definition is_postgres_call (ef : Effect) : bool :=
  match ef with
  | PgCursor | CursorExecute _ | CursorClose => true
  | _ => false
  end.

Definition Trace : Type := list Effect.

(** ** The monad of view computations *)

Definition M (A : Type) : Type := Trace → Outcome A * Trace.

#[global] Instance M_ret : MRet M := λ A a t, (Return a, t).

#[global] Instance M_bind : MBind M := λ A B f m t,
  match m t with
  | (Return a, t') => f a t'
  | (Raise e, t') => (Raise e, t')
  end.

(** Perform effect [ef], whose outcome is [r]. *)
Definition perform {A} (ef : Effect) (r : Outcome A) : M A :=
  λ t, (r, t ++ [ef]).

(** [try: body  except Exception as e: handler e]. *)
Definition try_except {A} (body : M A) (handler : Exception → M A) : M A :=
  λ t,
    match body t with
    | (Return a, t') => (Return a, t')
    | (Raise e, t') => handler e t'
    end.

(** ** Collaborators

    A handle is the client object of a library outside this repository; it
    is known here by the outcome of each call the views make on it. *)

Module redis.

Record Redis : Type := mkRedis {
  ping_outcome : Outcome bool;
  get_outcome : string → Outcome (option string)
}.

Definition ping (c : Redis) : M bool := perform RedisPing (ping_outcome c).

Definition get (c : Redis) (key : string) : M (option string) :=
  perform (RedisGet key) (get_outcome c key).

(** The client of a reachable server whose string keys are [db]
    ([decode_responses=True]: values come back as [str], a missing key
    as [None]). *)
Definition serving (db : gmap string string) : Redis :=
  mkRedis (Return true) (λ key, Return (db !! key)).

End redis.

Module psycopg2.

Record Cursor : Type := mkCursor {
  execute_outcome : string → Outcome unit;
  close_outcome : Outcome unit
}.

Record Connection : Type := mkConnection {
  cursor_outcome : Outcome Cursor
}.

Definition cursor (c : Connection) : M Cursor := perform PgCursor (cursor_outcome c).

Definition execute (cur : Cursor) (sql : string) : M unit :=
  perform (CursorExecute sql) (execute_outcome cur sql).

Definition close (cur : Cursor) : M unit := perform CursorClose (close_outcome cur).

(** A connection on which every call succeeds. *)
Definition healthy : Connection :=
  mkConnection (Return (mkCursor (λ _, Return tt) (Return tt))).

End psycopg2.

Module logger.

Definition error (msg : string) : M unit := perform (LogError msg) (Return tt).

End logger.

(** ** The standard library pieces [health_check] reads *)

Module os.

(** [os.getenv(key, default)] on the process environment. *)
Definition getenv (environ : gmap string string) (key dflt : string) : string :=
  default dflt (environ !! key).

End os.

Module datetime.

(** The ranges the [datetime] constructor enforces (it raises
    [ValueError] outside them), so that every [datetime] object has them.
    The day is bounded here by 31 for every month. *)
Definition fields_ok (year month day hour minute second microsecond : N) : bool :=
  ((1 <=? year) && (year <=? 9999) && (1 <=? month) && (month <=? 12)
   && (1 <=? day) && (day <=? 31) && (hour <=? 23) && (minute <=? 59)
   && (second <=? 59) && (microsecond <=? 999999))%N.

(** A naive (timezone-free) [datetime], as [datetime.utcnow()] returns. *)
Record datetime : Type := mk {
  year : N; month : N; day : N;
  hour : N; minute : N; second : N; microsecond : N;
  in_range : fields_ok year month day hour minute second microsecond = true
}.

Definition digit (n : N) : ascii := ascii_of_N (48 + n mod 10).

(** The last [w] decimal digits of [n], most significant first. *)
Fixpoint fixed (w : nat) (n : N) : string :=
  match w with
  | O => ""
  | S w' => fixed w' (n / 10) +:+ String (digit n) ""
  end.

(** ["%0<w>d" % n]: [n] in decimal, zero-filled on the left to [w]
    characters, longer when [n] needs more. *)
Definition zero_filled (w : nat) (n : N) : string :=
  if (n <? 10 ^ N.of_nat w)%N then fixed w n
  else NilZero.string_of_uint (N.to_uint n).

(** [d.isoformat()] with the default separator: [YYYY-MM-DDTHH:MM:SS],
    followed by [.ffffff] when the microsecond is not 0. *)
Definition isoformat (d : datetime) : string :=
  zero_filled 4 (year d) +:+ "-" +:+ zero_filled 2 (month d) +:+ "-"
  +:+ zero_filled 2 (day d) +:+ "T" +:+ zero_filled 2 (hour d) +:+ ":"
  +:+ zero_filled 2 (minute d) +:+ ":" +:+ zero_filled 2 (second d)
  +:+ (if (microsecond d =? 0)%N then ""
       else "." +:+ zero_filled 6 (microsecond d)).

(** *** Recognising the ISO-8601 extended format *)







End datetime.

(** ** The dispatch layer (Flask)

    Only what the views use and what decides the HTTP response: the
    request object, [jsonify], and how the value a view returns, or the
    exception it lets escape, becomes a response.  [main.py] registers no
    error handler, so an escaped exception gets the layer's own error
    response. *)

Module flask.

Inductive Method : Type := GET | POST | HEAD | PUT | PATCH | DELETE.

#[global] Instance Method_eq_dec : EqDecision Method.
Proof. solve_decision. Defined.

(** The request as [users] reads it: its method, and the outcome of
    [request.get_json()], which raises an [HTTPException] on a body that
    is not JSON. *)
Record Request : Type := mkRequest {
  method : Method;
  json_outcome : Outcome json
}.

Definition get_json (request : Request) : M json := λ t, (json_outcome request, t).

Inductive Payload : Type :=
| JsonData (j : json)
| ErrorPage.

Record Response : Type := mkResponse {
  status_code : Z;
  mimetype : string;
  data : Payload
}.

(** [jsonify(j)]: the response is kept with the JSON value it carries,
    not with its serialisation. *)
Definition jsonify (j : json) : Response :=
  mkResponse 200 "application/json" (JsonData j).

(** What a view function hands back: a response, a
    [(response, status)] tuple, or [None] when it falls off its end. *)
Inductive ReturnValue : Type :=
| Plain (r : Response)
| WithStatus (r : Response) (status : Z)
| NoneValue.

Definition make_response (rv : ReturnValue) : Outcome Response :=
  match rv with
  | Plain r => Return r
  | WithStatus r status => Return (mkResponse status (mimetype r) (data r))
  | NoneValue => Raise (Error "The view function did not return a valid response.")
  end.

(** The layer's own error response, as served with [debug=False]: the
    page of the [HTTPException] raised, or of [InternalServerError] for
    any other exception. *)
Definition handle_exception (e : Exception) : Response :=
  mkResponse (default 500 (http_code e)) "text/html" ErrorPage.

(** Run the view matched for the request and finalise the response.  The
    method has been checked against the route by then; that check, the
    log line for an exception that is not an [HTTPException] and the
    empty body of a reply to HEAD are in [wsgi_app] below. *)
Definition full_dispatch_request (view : M ReturnValue) (t : Trace) : Response * Trace :=
  match view t with
  | (Return rv, t') =>
      match make_response rv with
      | Return r => (r, t')
      | Raise e => (handle_exception e, t')
      end
  | (Raise e, t') => (handle_exception e, t')
  end.

End flask.

Import flask.

(** ** [main.py] *)

(** The module globals [redis_client] and [postgres_conn]: [None] until
    [init_connections] has set them. *)
Record Globals : Type := mkGlobals {
  redis_client : option redis.Redis;
  postgres_conn : option psycopg2.Connection
}.

(** What [health_check] reads from the process: the environment and the
    clock. *)
Record Process : Type := mkProcess {
  environ : gmap string string;
  utcnow : datetime.datetime
}.

(** Truth value of what [redis_client.get] returns: [None] and the empty
    string are false. *)
Definition truthy (value : option string) : bool :=
  match value with
  | None => false
  | Some s => negb (String.eqb s "")
  end.

Definition json_of_value (value : option string) : json :=
  match value with
  | None => JNull
  | Some s => JStr s
  end.

Definition health_check (p : Process) : M ReturnValue :=
  mret (Plain (jsonify (JObj [
    ("status", JStr "healthy");
    ("timestamp", JStr (datetime.isoformat (utcnow p)));
    ("version", JStr (os.getenv (environ p) "APP_VERSION" "1.0.0"))
  ]))).

Definition readiness_check (g : Globals) : M ReturnValue :=
  try_except
    ((match redis_client g with
      | Some client => redis.ping client;; mret tt
      | None => mret tt
      end);;
     (match postgres_conn g with
      | Some conn =>
          cursor ← psycopg2.cursor conn;
          psycopg2.execute cursor "SELECT 1";;
          psycopg2.close cursor
      | None => mret tt
      end);;
     mret (Plain (jsonify (JObj [("status", JStr "ready")]))))
    (λ e,
      logger.error ("Readiness check failed: " +:+ str e);;
      mret (WithStatus (jsonify (JObj [("status", JStr "not ready"); ("error", JStr (str e))])) 503)).

Definition users (request : Request) : M ReturnValue :=
  match method request with
  | GET =>
      mret (Plain (jsonify (JObj [
        ("users", JList [
          JObj [("id", JInt 1); ("name", JStr "John Doe"); ("email", JStr "john@example.com")];
          JObj [("id", JInt 2); ("name", JStr "Jane Smith"); ("email", JStr "jane@example.com")]
        ])
      ])))
  | POST =>
      user_data ← get_json request;
      mret (WithStatus (jsonify (JObj [
        ("message", JStr "User created successfully");
        ("user", user_data)
      ])) 201)
  | _ => mret NoneValue
  end.

Definition get_cache (g : Globals) (key : string) : M ReturnValue :=
  try_except
    (match redis_client g with
     | Some client =>
         value ← redis.get client key;
         if truthy value
         then mret (Plain (jsonify (JObj [("key", JStr key); ("value", json_of_value value)])))
         else mret (WithStatus (jsonify (JObj [("error", JStr "Key not found")])) 404)
     | None =>
         mret (WithStatus (jsonify (JObj [("error", JStr "Redis not available")])) 503)
     end)
    (λ e, mret (WithStatus (jsonify (JObj [("error", JStr (str e))])) 500)).

(** ** Routes and operations *)

(** The four routes [main.py] registers, with the [key] the URL converter
    extracted for the last one. *)
Inductive Endpoint : Type :=
| ep_health
| ep_ready
| ep_users
| ep_cache (key : string).

(** The methods each [@app.route] declares. *)
Definition methods (ep : Endpoint) : list Method :=
  match ep with
  | ep_users => [GET; POST]
  | _ => [GET]
  end.

Definition view_function (p : Process) (g : Globals) (request : Request) (ep : Endpoint) : M ReturnValue :=
  match ep with
  | ep_health => health_check p
  | ep_ready => readiness_check g
  | ep_users => users request
  | ep_cache key => get_cache g key
  end.

(** The response to a request routed to [ep]. *)
Definition handle (p : Process) (g : Globals) (request : Request) (ep : Endpoint) : Trace → Response * Trace :=
  full_dispatch_request (view_function p g request ep).

(** The operations of the gateway, each the response to the request that
    names it. *)
Definition GetHealth (p : Process) (g : Globals) (request : Request) :=
  handle p g request ep_health.

Definition GetReadiness (p : Process) (g : Globals) (request : Request) :=
  handle p g request ep_ready.

Definition ListUsers (p : Process) (g : Globals) (body : Outcome json) :=
  handle p g (mkRequest GET body) ep_users.

Definition CreateUser (p : Process) (g : Globals) (body : json) :=
  handle p g (mkRequest POST (Return body)) ep_users.

Definition GetCacheValue (p : Process) (g : Globals) (request : Request) (key : string) :=
  handle p g request (ep_cache key).

(** ** What the probes of [/ready] find

    The outcome of each probe read off the handle, without running the
    view: [None] when the handle is [None] and nothing is probed. *)

Definition cache_probe (g : Globals) : option (Outcome bool) :=
  redis.ping_outcome <$> redis_client g.

(** [cursor()], [execute('SELECT 1')], [close()]: the first exception, if
    any. *)
Definition select_1 (conn : psycopg2.Connection) : Outcome unit :=
  match psycopg2.cursor_outcome conn with
  | Return cur =>
      match psycopg2.execute_outcome cur "SELECT 1" with
      | Return _ => psycopg2.close_outcome cur
      | Raise e => Raise e
      end
  | Raise e => Raise e
  end.

Definition relational_probe (g : Globals) : option (Outcome unit) :=
  select_1 <$> postgres_conn g.

Definition raised {A} (probe : option (Outcome A)) : option Exception :=
  match probe with
  | Some (Raise e) => Some e
  | _ => None
  end.

(** The two bodies [readiness_check] answers with. *)
Definition ready : Response :=
  mkResponse 200 "application/json" (JsonData (JObj [("status", JStr "ready")])).

Definition not_ready (e : Exception) : Response :=
  mkResponse 503 "application/json"
    (JsonData (JObj [("status", JStr "not ready"); ("error", JStr (str e))])).

(** The value of field [k] of a JSON response, [None] for any other
    response. *)
Definition response_field (k : string) (r : Response) : option json :=
  match data r with
  | JsonData j => member k j
  | ErrorPage => None
  end.

(** A JSON response whose body is a dict with an [error] string. *)
Definition error_envelope (r : Response) : Prop :=
  mimetype r = "application/json" ∧ ∃ msg, response_field "error" r = Some (JStr msg).

(** No call to Redis follows a call to PostgreSQL. *)
Fixpoint redis_before_postgres (t : Trace) : bool :=
  match t with
  | [] => true
  | ef :: rest =>
      (if is_postgres_call ef then forallb (λ ef', negb (is_redis_call ef')) rest else true)
      && redis_before_postgres rest
  end.

(** ** Sample collaborators *)

Definition midnight : datetime.datetime := datetime.mk 2024 1 1 0 0 0 0 eq_refl.

Definition bare_process : Process := mkProcess ∅ midnight.

(** A GET without a body. *)
Definition plain_get : Request := mkRequest GET (Return JNull).

(** A Redis client on which every call raises [e]. *)
Definition unreachable (e : Exception) : redis.Redis :=
  redis.mkRedis (Raise e) (λ _, Raise e).

(** A connection whose [cursor()] raises [e]. *)
Definition closed_connection (e : Exception) : psycopg2.Connection :=
  psycopg2.mkConnection (Raise e).

Definition not_initialised : Globals := mkGlobals None None.

Definition all_up : Globals :=
  mkGlobals (Some (redis.serving ∅)) (Some psycopg2.healthy).

Definition redis_down : Globals :=
  mkGlobals (Some (unreachable (Error "Connection refused"))) (Some psycopg2.healthy).

Definition postgres_down : Globals :=
  mkGlobals (Some (redis.serving ∅)) (Some (closed_connection (Error "connection already closed"))).

(** Both collaborators fail, each with its own message. *)
Definition both_down : Globals :=
  mkGlobals (Some (unreachable (Error "Connection refused")))
            (Some (closed_connection (Error "connection already closed"))).

(** Redis fails with an exception that carries no message, as [str] of a
    bare [TimeoutError()] is empty. *)
Definition silent_failure : Globals :=
  mkGlobals (Some (unreachable (Error ""))) (Some psycopg2.healthy).

(** Redis holds key [k] with the empty string as its value. *)
Definition empty_value : Globals :=
  mkGlobals (Some (redis.serving {["k" := ""]})) None.

(** A POST to [/api/users] whose body is not valid JSON. *)
Definition malformed_post : Request := mkRequest POST (Raise BadRequest).

(** The first of the two users [users] lists. *)
Definition john_doe : json :=
  JObj [("id", JInt 1); ("name", JStr "John Doe"); ("email", JStr "john@example.com")].

(** ** Start-up: [init_connections] and the [__main__] block

    Start-up assigns the two module globals and calls into libraries
    outside this repository.  Those calls are known by their outcomes: the
    builtin [int] on a string, the [redis.Redis] constructor,
    [psycopg2.connect] and [app.run]. *)

Record Libraries : Type := mkLibraries {
  int_of_str : string → Outcome Z;
  new_redis : string → Z → bool → Outcome redis.Redis;
  connect : string → string → string → string → Outcome psycopg2.Connection;
  run_outcome : string → Z → bool → Outcome unit
}.

Inductive StartupEffect : Type :=
| NewRedis (host : string) (port : Z) (decode_responses : bool)
| Connect (host database user password : string)
| LogInfo (msg : string)
| LogFailure (msg : string)
| AppRun (host : string) (port : Z) (debug : bool).

Definition is_log (ef : StartupEffect) : bool :=
  match ef with
  | LogInfo _ | LogFailure _ => true
  | _ => false
  end.

Definition is_connect (ef : StartupEffect) : bool :=
  match ef with
  | Connect _ _ _ _ => true
  | _ => false
  end.

Definition is_app_run (ef : StartupEffect) : bool :=
  match ef with
  | AppRun _ _ _ => true
  | _ => false
  end.

(** The state start-up works on: the module globals and the effects
    performed so far. *)
Definition StartupState : Type := Globals * list StartupEffect.

Definition Startup (A : Type) : Type := StartupState → Outcome A * StartupState.

#[global] Instance Startup_ret : MRet Startup := λ A a s, (Return a, s).

#[global] Instance Startup_bind : MBind Startup := λ A B f m s,
  match m s with
  | (Return a, s') => f a s'
  | (Raise e, s') => (Raise e, s')
  end.

(** A pure computation that may raise. *)
Definition lift {A} (r : Outcome A) : Startup A := λ s, (r, s).

Definition call {A} (ef : StartupEffect) (r : Outcome A) : Startup A :=
  λ s, (r, (fst s, snd s ++ [ef])).

(** [global redis_client; redis_client = client]. *)
Definition set_redis_client (client : redis.Redis) : Startup unit :=
  λ s, (Return tt, (mkGlobals (Some client) (postgres_conn (fst s)), snd s)).

(** [global postgres_conn; postgres_conn = conn]. *)
Definition set_postgres_conn (conn : psycopg2.Connection) : Startup unit :=
  λ s, (Return tt, (mkGlobals (redis_client (fst s)) (Some conn), snd s)).

(** [try: body  except Exception as e: handler e], at start-up. *)
Definition attempt {A} (body : Startup A) (handler : Exception → Startup A) : Startup A :=
  λ s,
    match body s with
    | (Return a, s') => (Return a, s')
    | (Raise e, s') => handler e s'
    end.

(** [os.getenv(key, default)] with an [int] default: the string of the
    variable, or the default itself. *)
Definition getenv_or (environ : gmap string string) (key : string) (dflt : Z) : string + Z :=
  match environ !! key with
  | Some s => inl s
  | None => inr dflt
  end.

(** [int(v)]: an [int] is returned as it is, a string is parsed. *)
Definition int (lib : Libraries) (v : string + Z) : Outcome Z :=
  match v with
  | inl s => int_of_str lib s
  | inr n => Return n
  end.

Definition init_connections (lib : Libraries) (environ : gmap string string) : Startup unit :=
  attempt
    (let redis_host := os.getenv environ "REDIS_HOST" "localhost" in
     redis_port ← lift (int lib (getenv_or environ "REDIS_PORT" 6379));
     client ← call (NewRedis redis_host redis_port true)
                   (new_redis lib redis_host redis_port true);
     set_redis_client client;;
     conn ← call (Connect (os.getenv environ "POSTGRES_HOST" "localhost")
                          (os.getenv environ "POSTGRES_DB" "devops_app")
                          (os.getenv environ "POSTGRES_USER" "postgres")
                          (os.getenv environ "POSTGRES_PASSWORD" "password"))
                 (connect lib (os.getenv environ "POSTGRES_HOST" "localhost")
                              (os.getenv environ "POSTGRES_DB" "devops_app")
                              (os.getenv environ "POSTGRES_USER" "postgres")
                              (os.getenv environ "POSTGRES_PASSWORD" "password"));
     set_postgres_conn conn;;
     call (LogInfo "Database connections initialized") (Return tt))
    (λ e, call (LogFailure ("Failed to initialize connections: " +:+ str e)) (Return tt)).

(** The [if __name__ == '__main__':] block. *)
Definition main (lib : Libraries) (environ : gmap string string) : Startup unit :=
  init_connections lib environ;;
  port ← lift (int lib (getenv_or environ "PORT" 5000));
  call (AppRun "0.0.0.0" port false) (run_outcome lib "0.0.0.0" port false).

(** The state of the module when it has just been imported: both globals
    [None], nothing done yet. *)
Definition imported : StartupState := (mkGlobals None None, []).

(** The globals a request is served with when the module is run as a
    script: those [init_connections] leaves. *)
Definition globals_at_serving (lib : Libraries) (environ : gmap string string) : Globals :=
  fst (snd (init_connections lib environ imported)).

(** Libraries whose calls have the given outcomes whatever their
    arguments. *)
Definition libraries_giving (i : Outcome Z) (r : Outcome redis.Redis)
    (c : Outcome psycopg2.Connection) : Libraries :=
  mkLibraries (λ _, i) (λ _ _ _, r) (λ _ _ _ _, c) (λ _ _ _, Return tt).

(** Start-up samples: PostgreSQL refuses the connection; [REDIS_PORT] is
    not a number; [PORT] is not a number. *)
Definition postgres_refuses : Libraries :=
  libraries_giving (Return 6380) (Return (redis.serving ∅))
    (Raise (Error "could not connect to server: Connection refused")).

Definition rejecting_int : Libraries :=
  libraries_giving (Raise (Error "invalid literal for int() with base 10: 'abc'"))
    (Return (redis.serving ∅)) (Return psycopg2.healthy).

Definition redis_constructor_raises : Libraries :=
  libraries_giving (Return 6379) (Raise (Error "Port must be a positive integer"))
    (Return psycopg2.healthy).

Definition everything_up : Libraries :=
  libraries_giving (Return 8080) (Return (redis.serving ∅)) (Return psycopg2.healthy).

Definition bad_redis_port : gmap string string := {["REDIS_PORT" := "abc"]}.

Definition bad_port : gmap string string := {["PORT" := "abc"]}.

(** ** Reading a trace *)

(** The messages logged, in order. *)
Definition log_lines (t : Trace) : list string :=
  omap (λ ef, match ef with LogError msg => Some msg | _ => None end) t.

(** The SQL texts executed, in order. *)
Definition statements (t : Trace) : list string :=
  omap (λ ef, match ef with CursorExecute sql => Some sql | _ => None end) t.

(** How many effects of [t] satisfy [f]. *)
Definition count (f : Effect → bool) (t : Trace) : nat := length (filter (λ ef, f ef = true) t).

Definition opens_cursor (ef : Effect) : bool :=
  match ef with PgCursor => true | _ => false end.

Definition closes_cursor (ef : Effect) : bool :=
  match ef with CursorClose => true | _ => false end.

(** A connection whose cursor opens and then fails on [execute]. *)
Definition failing_query (e : Exception) : psycopg2.Connection :=
  psycopg2.mkConnection (Return (psycopg2.mkCursor (λ _, Raise e) (Return tt))).

Definition query_fails : Globals :=
  mkGlobals None (Some (failing_query (Error "server closed the connection unexpectedly"))).

(** A request with a method [users] has no branch for. *)
Definition head_request : Request := mkRequest HEAD (Return JNull).

(** ** The test suite ([tests/test_app.py])

    Each test is the conjunction of its assertions, as a function of the
    process and of the module globals the test client finds.  The client
    calls a view by the path its route is registered under; a body it
    posts as JSON is what [get_json] gives back; [json.loads] of the
    response data is the JSON value the response carries, and fails on a
    response that carries none. *)

Definition client_get (p : Process) (g : Globals) (ep : Endpoint) : Response :=
  fst (handle p g (mkRequest GET (Return JNull)) ep []).

Definition client_post (p : Process) (g : Globals) (ep : Endpoint) (body : json) : Response :=
  fst (handle p g (mkRequest POST (Return body)) ep []).

Definition loads (response : Response) : option json :=
  match data response with
  | JsonData j => Some j
  | ErrorPage => None
  end.

(** [v == s] for a string [s]; false as well when the subscript that gave
    [v] fails. *)
Definition equals_str (v : option json) (s : string) : bool :=
  match v with
  | Some (JStr s') => String.eqb s' s
  | _ => false
  end.

Definition contains (k : string) (j : json) : bool :=
  match member k j with
  | Some _ => true
  | None => false
  end.

Definition test_health_check (p : Process) (g : Globals) : bool :=
  let response := client_get p g ep_health in
  (status_code response =? 200)
  && match loads response with
     | Some data =>
         equals_str (member "status" data) "healthy"
         && contains "timestamp" data
         && contains "version" data
     | None => false
     end.

Definition test_readiness_check (p : Process) (g : Globals) : bool :=
  let response := client_get p g ep_ready in
  (status_code response =? 200) || (status_code response =? 503).

Definition test_users_get (p : Process) (g : Globals) : bool :=
  let response := client_get p g ep_users in
  (status_code response =? 200)
  && match loads response with
     | Some data =>
         contains "users" data
         && match member "users" data with
            | Some (JList users) =>
                (length users =? 2)%nat
                && equals_str (users !! 0%nat ≫= member "name") "John Doe"
            | _ => false
            end
     | None => false
     end.

Definition test_users_post (p : Process) (g : Globals) : bool :=
  let user_data := JObj [("name", JStr "Test User"); ("email", JStr "test@example.com")] in
  let response := client_post p g ep_users user_data in
  (status_code response =? 201)
  && match loads response with
     | Some data =>
         equals_str (member "message" data) "User created successfully"
         && equals_str (member "user" data ≫= member "name") "Test User"
     | None => false
     end.

Definition test_cache_endpoint_key_not_found (p : Process) (g : Globals) : bool :=
  let response := client_get p g (ep_cache "nonexistent") in
  (status_code response =? 404) || (status_code response =? 503).

(** ** Serving a routed request

    [handle] is the response once the view of the route is run.  Around it
    the dispatch layer checks the method against the route, logs an
    exception that is not an [HTTPException] before it answers 500, and
    sends no body in answer to HEAD.  OPTIONS, which the layer answers by
    itself with 200, is not among the methods modelled. *)

Definition method_name (m : Method) : string :=
  match m with
  | GET => "GET"
  | POST => "POST"
  | HEAD => "HEAD"
  | PUT => "PUT"
  | PATCH => "PATCH"
  | DELETE => "DELETE"
  end.

(** The path of a request routed to [ep], from the rule of its
    [@app.route]. *)
Definition path_of (ep : Endpoint) : string :=
  match ep with
  | ep_health => "/health"
  | ep_ready => "/ready"
  | ep_users => "/api/users"
  | ep_cache key => "/api/cache/" +:+ key
  end.

(** The methods a route serves: those it declares, and HEAD when GET is
    one of them. *)
Definition serves (ep : Endpoint) (m : Method) : bool :=
  bool_decide (m ∈ methods ep)
  || (bool_decide (m = HEAD) && bool_decide (GET ∈ methods ep)).

(** werkzeug's [MethodNotAllowed]. *)
Definition MethodNotAllowed : Exception :=
  mkException (Some 405) "405 Method Not Allowed: The method is not allowed for the requested URL.".

(** What the client receives: status, content type, and the body unless
    the request was a HEAD. *)
Record Reply : Type := mkReply {
  reply_status : Z;
  content_type : string;
  body : option Payload
}.

Definition on_the_wire (m : Method) (r : Response) : Reply :=
  mkReply (status_code r) (mimetype r) (if bool_decide (m = HEAD) then None else Some (data r)).

(** The layer's answer to an exception that escaped the view: the page of
    an [HTTPException]; for any other exception a log line
    [Exception on <path> [<method>]] and the page of
    [InternalServerError]. *)
Definition handle_user_exception (ep : Endpoint) (m : Method) (e : Exception) (t : Trace) : Response * Trace :=
  match http_code e with
  | Some _ => (handle_exception e, t)
  | None =>
      (handle_exception e,
       t ++ [LogError ("Exception on " +:+ path_of ep +:+ " [" +:+ method_name m +:+ "]")])
  end.

(** The reply to a request whose path matched the rule of [ep]. *)
Definition wsgi_app (p : Process) (g : Globals) (request : Request) (ep : Endpoint) (t : Trace) : Reply * Trace :=
  let m := method request in
  if serves ep m then
    let '(r, t') :=
      match view_function p g request ep t with
      | (Return rv, t') =>
          match make_response rv with
          | Return r => (r, t')
          | Raise e => handle_user_exception ep m e t'
          end
      | (Raise e, t') => handle_user_exception ep m e t'
      end in
    (on_the_wire m r, t')
  else (on_the_wire m (handle_exception MethodNotAllowed), t).

(** A reply that carries a JSON dict with an [error] string. *)
Definition json_error_reply (reply : Reply) : Prop :=
  content_type reply = "application/json"
  ∧ ∃ items msg, body reply = Some (JsonData (JObj items))
                 ∧ field "error" items = Some (JStr msg).

(** A POST to [/api/users] that is not sent as JSON: [get_json] raises
    werkzeug's [UnsupportedMediaType]. *)
Definition UnsupportedMediaType : Exception :=
  mkException (Some 415) "415 Unsupported Media Type: Did not attempt to load JSON data because the request Content-Type was not 'application/json'.".

Definition form_post : Request := mkRequest POST (Raise UnsupportedMediaType).

Definition put_request : Request := mkRequest PUT (Return JNull).

(** ** What the library calls of [init_connections] give

    The three calls in the order [init_connections] makes them: the client
    and the connection when all return, otherwise the first exception
    raised. *)
Definition startup_calls (lib : Libraries) (environ : gmap string string)
    : Outcome (redis.Redis * psycopg2.Connection) :=
  match int lib (getenv_or environ "REDIS_PORT" 6379) with
  | Raise e => Raise e
  | Return port =>
      match new_redis lib (os.getenv environ "REDIS_HOST" "localhost") port true with
      | Raise e => Raise e
      | Return client =>
          match connect lib (os.getenv environ "POSTGRES_HOST" "localhost")
                  (os.getenv environ "POSTGRES_DB" "devops_app")
                  (os.getenv environ "POSTGRES_USER" "postgres")
                  (os.getenv environ "POSTGRES_PASSWORD" "password") with
          | Raise e => Raise e
          | Return conn => Return (client, conn)
          end
      end
  end.

(** * Properties *)

(** ** Sample runs *)

Example health_at_midnight :
  GetHealth bare_process not_initialised plain_get [] =
    (mkResponse 200 "application/json"
       (JsonData (JObj [("status", JStr "healthy");
                        ("timestamp", JStr "2024-01-01T00:00:00");
                        ("version", JStr "1.0.0")])), []).
Proof. reflexivity. Qed.

Example ready_when_all_up :
  GetReadiness bare_process all_up plain_get [] =
    (ready, [RedisPing; PgCursor; CursorExecute "SELECT 1"; CursorClose]).
Proof. reflexivity. Qed.

Example not_ready_when_postgres_down :
  GetReadiness bare_process postgres_down plain_get [] =
    (not_ready (Error "connection already closed"),
     [RedisPing; PgCursor; LogError "Readiness check failed: connection already closed"]).
Proof. reflexivity. Qed.

Example create_test_user :
  fst (CreateUser bare_process not_initialised
         (JObj [("name", JStr "Test User"); ("email", JStr "test@example.com")]) []) =
    mkResponse 201 "application/json"
      (JsonData (JObj [("message", JStr "User created successfully");
                       ("user", JObj [("name", JStr "Test User");
                                      ("email", JStr "test@example.com")])])).
Proof. reflexivity. Qed.

Example isoformat_with_microseconds :
  datetime.isoformat (datetime.mk 2024 11 3 13 5 9 1234 eq_refl) = "2024-11-03T13:05:09.001234".
Proof. reflexivity. Qed.

(** ** The timestamp format *)

Section Isoformat.

Import datetime.




Lemma zero_filled_in_range (w : nat) (n : N) :
  (n < 10 ^ N.of_nat w)%N → zero_filled w n = fixed w n.
Proof.
  intros Hlt. unfold zero_filled.
  apply N.ltb_lt in Hlt. rewrite Hlt. reflexivity.
Qed.


Lemma fields_in_range (d : datetime) :
  (year d < 10 ^ N.of_nat 4 ∧ month d < 10 ^ N.of_nat 2 ∧ day d < 10 ^ N.of_nat 2
   ∧ hour d < 10 ^ N.of_nat 2 ∧ minute d < 10 ^ N.of_nat 2
   ∧ second d < 10 ^ N.of_nat 2 ∧ microsecond d < 10 ^ N.of_nat 6)%N.
Proof.
  pose proof (in_range d) as H. unfold fields_ok in H.
  repeat (apply andb_true_iff in H as [H ?]).
  repeat match goal with Hle : (_ <=? _)%N = true |- _ => apply N.leb_le in Hle end.
  change (10 ^ N.of_nat 4)%N with 10000%N.
  change (10 ^ N.of_nat 2)%N with 100%N.
  change (10 ^ N.of_nat 6)%N with 1000000%N.
  lia.
Qed.



End Isoformat.

(** ** Running the views *)

Ltac unfold_views :=
  unfold GetHealth, GetReadiness, ListUsers, CreateUser, GetCacheValue, handle,
    view_function, full_dispatch_request, health_check, readiness_check, users,
    get_cache, try_except, redis.ping, redis.get, psycopg2.cursor,
    psycopg2.execute, psycopg2.close, logger.error, get_json, perform,
    make_response, handle_exception, jsonify, mbind, M_bind, mret, M_ret in *.

Ltac unfold_probes :=
  unfold cache_probe, relational_probe, select_1, raised, ready, not_ready in *.

Ltac run_view :=
  unfold_views; unfold_probes; simpl in *; simplify_eq/=;
  repeat (case_match; simplify_eq/=); rewrite <- ?app_assoc; simpl.

(** The effects a run has added to the trace it started from. *)
Ltac give_added :=
  first [ exists []; split; [rewrite app_nil_r; reflexivity|]
        | eexists; split; [reflexivity|] ].

(** The response of [/ready] is decided by the first probe that raises. *)
Lemma GetReadiness_response p g request t :
  fst (GetReadiness p g request t) =
    match raised (cache_probe g), raised (relational_probe g) with
    | Some e, _ => not_ready e
    | None, Some e => not_ready e
    | None, None => ready
    end.
Proof. destruct g as [[client|] [conn|]]; run_view; reflexivity. Qed.

(** [/api/cache/<key>] by what the handle is and what [get] gives. *)
Lemma GetCacheValue_run p g request key t :
  GetCacheValue p g request key t =
    match redis_client g with
    | None =>
        (mkResponse 503 "application/json" (JsonData (JObj [("error", JStr "Redis not available")])), t)
    | Some client =>
        (match redis.get_outcome client key with
         | Return value =>
             if truthy value
             then mkResponse 200 "application/json"
                    (JsonData (JObj [("key", JStr key); ("value", json_of_value value)]))
             else mkResponse 404 "application/json"
                    (JsonData (JObj [("error", JStr "Key not found")]))
         | Raise e =>
             mkResponse 500 "application/json" (JsonData (JObj [("error", JStr (str e))]))
         end, t ++ [RedisGet key])
    end.
Proof. destruct g as [[client|] conn]; run_view; reflexivity. Qed.

(** ** GetReadiness *)

(** C1 (amended): [GetReadiness] answers 200 with status [ready] when
    neither probe raises; when either probe raises it answers 503 and the
    [error] field is [str] of the exception one of the probes raised, so it
    is non-empty exactly when that string is. *)
Theorem readiness_reports_probes p g request t :
  let r := fst (GetReadiness p g request t) in
  (raised (cache_probe g) = None → raised (relational_probe g) = None →
     status_code r = 200 ∧ response_field "status" r = Some (JStr "ready")
     ∧ response_field "error" r = None)
  ∧ (is_Some (raised (cache_probe g)) ∨ is_Some (raised (relational_probe g)) →
     ∃ e, (raised (cache_probe g) = Some e ∨ raised (relational_probe g) = Some e)
          ∧ status_code r = 503
          ∧ response_field "error" r = Some (JStr (str e))
          ∧ (str e ≠ "" ↔ response_field "error" r ≠ Some (JStr ""))).
Proof.
  intros r. subst r. rewrite GetReadiness_response. split.
  - intros -> ->. done.
  - intros Hraised.
    destruct (raised (cache_probe g)) as [e1|] eqn:Hc.
    + exists e1. split; [auto|]. split; [reflexivity|]. split; [reflexivity|].
      unfold response_field; simpl.
      split; intros H1 H2; apply H1; congruence.
    + destruct Hraised as [[e He]|[e He]]; [discriminate|].
      rewrite He. exists e. split; [auto|]. split; [reflexivity|]. split; [reflexivity|].
      unfold response_field; simpl.
      split; intros H1 H2; apply H1; congruence.
Qed.

Lemma readiness_reports_probes_witness :
  status_code (fst (GetReadiness bare_process all_up plain_get [])) = 200
  ∧ ∃ e, status_code (fst (GetReadiness bare_process postgres_down plain_get [])) = 503
         ∧ response_field "error" (fst (GetReadiness bare_process postgres_down plain_get []))
           = Some (JStr (str e)).
Proof.
  split.
  - apply (readiness_reports_probes bare_process all_up plain_get []); reflexivity.
  - destruct (proj2 (readiness_reports_probes bare_process postgres_down plain_get []))
      as (e & _ & Hcode & Herr & _).
    + right. eexists. reflexivity.
    + exists e. split; assumption.
Defined.

(** C1 as stated fails: a probe that raises an exception whose [str] is
    empty gets a 503 whose [error] string is empty. *)
Lemma readiness_error_can_be_empty :
  raised (cache_probe silent_failure) = Some (Error "")
  ∧ status_code (fst (GetReadiness bare_process silent_failure plain_get [])) = 503
  ∧ ¬ ∃ msg, response_field "error" (fst (GetReadiness bare_process silent_failure plain_get []))
             = Some (JStr msg) ∧ msg ≠ "".
Proof.
  repeat split. intros (msg & Hfield & Hne).
  vm_compute in Hfield. congruence.
Qed.

(** C3: [GetReadiness] calls Redis before PostgreSQL; an exception from
    the cache probe ends the probing, so that PostgreSQL is not called and
    the 503 carries [str] of that exception alone, whatever the relational
    probe would have raised; otherwise an exception from the relational
    probe is the one reported. *)
Theorem readiness_first_failure_only p g request t :
  (∃ added, snd (GetReadiness p g request t) = t ++ added
            ∧ redis_before_postgres added = true
            ∧ (∀ client conn, redis_client g = Some client → postgres_conn g = Some conn →
                 raised (cache_probe g) = None →
                 ∃ rest, added = RedisPing :: PgCursor :: rest))
  ∧ (∀ e, raised (cache_probe g) = Some e →
       GetReadiness p g request t =
         (not_ready e, t ++ [RedisPing; LogError ("Readiness check failed: " +:+ str e)]))
  ∧ (∀ e, raised (cache_probe g) = None → raised (relational_probe g) = Some e →
       fst (GetReadiness p g request t) = not_ready e).
Proof.
  split; [|split].
  - destruct g as [[client|] [conn|]]; run_view;
      (give_added; split; [reflexivity|]);
      intros; simplify_eq; eauto.
  - intros e He. destruct g as [[client|] [conn|]]; run_view; reflexivity.
  - intros e Hc Hr. rewrite GetReadiness_response, Hc, Hr. reflexivity.
Qed.

Lemma readiness_first_failure_only_witness :
  GetReadiness bare_process both_down plain_get [] =
    (not_ready (Error "Connection refused"),
     [RedisPing; LogError "Readiness check failed: Connection refused"])
  ∧ fst (GetReadiness bare_process postgres_down plain_get [])
    = not_ready (Error "connection already closed").
Proof.
  destruct (readiness_first_failure_only bare_process both_down plain_get [])
    as (_ & Hcache & _).
  destruct (readiness_first_failure_only bare_process postgres_down plain_get [])
    as (_ & _ & Hrel).
  split.
  - apply Hcache. reflexivity.
  - apply Hrel; reflexivity.
Defined.

(** C4 (amended): the [status] field of every 503 of [GetReadiness] is the
    string [not ready], written with a space. *)
Theorem readiness_failure_status p g request t :
  status_code (fst (GetReadiness p g request t)) = 503 →
  response_field "status" (fst (GetReadiness p g request t)) = Some (JStr "not ready").
Proof.
  rewrite GetReadiness_response.
  destruct (raised (cache_probe g)), (raised (relational_probe g)); simpl;
    intros; first [reflexivity | discriminate].
Qed.

Lemma readiness_failure_status_witness :
  response_field "status" (fst (GetReadiness bare_process redis_down plain_get []))
  = Some (JStr "not ready").
Proof. apply (readiness_failure_status bare_process redis_down plain_get []). reflexivity. Defined.

(** C4 as stated fails: the [status] of a 503 is not [not_ready]. *)
Lemma readiness_failure_status_is_not_the_enum_name :
  status_code (fst (GetReadiness bare_process postgres_down plain_get [])) = 503
  ∧ response_field "status" (fst (GetReadiness bare_process postgres_down plain_get []))
    ≠ Some (JStr "not_ready").
Proof. split; [reflexivity | discriminate]. Qed.

(** C9: a handle that is [None] is not probed: no Redis call without
    [redis_client], no PostgreSQL call without [postgres_conn]; with both
    handles [None], [GetReadiness] answers 200 with status [ready] and has
    performed no effect at all. *)
Theorem readiness_skips_missing_handles p g request t :
  (∃ added, snd (GetReadiness p g request t) = t ++ added
            ∧ (redis_client g = None → forallb (λ ef, negb (is_redis_call ef)) added = true)
            ∧ (postgres_conn g = None → forallb (λ ef, negb (is_postgres_call ef)) added = true))
  ∧ (redis_client g = None → postgres_conn g = None →
       GetReadiness p g request t = (ready, t)).
Proof.
  split.
  - destruct g as [[client|] [conn|]]; run_view;
      (give_added; split; intros; first [reflexivity | discriminate]).
  - destruct g as [client conn]; simpl; intros -> ->. reflexivity.
Qed.

Lemma readiness_skips_missing_handles_witness :
  GetReadiness bare_process not_initialised plain_get [] = (ready, []).
Proof.
  apply (readiness_skips_missing_handles bare_process not_initialised plain_get []);
    reflexivity.
Defined.

(** ** GetCacheValue *)

(** C2: the code misses the claim on a key stored with the empty string
    as its value.  Key [k] is present in the store, the handle is
    configured and the lookup does not raise, yet [get_cache] answers 404
    [Key not found], not 200 with the key and its value: it tests the
    value for truth where the claim needs a test against [None]. *)
Lemma present_key_with_empty_value_is_not_found :
  redis_client empty_value = Some (redis.serving {["k" := ""]})
  ∧ ({["k" := ""]} : gmap string string) !! "k" = Some ""
  ∧ status_code (fst (GetCacheValue bare_process empty_value plain_get "k" [])) = 404
  ∧ fst (GetCacheValue bare_process empty_value plain_get "k" [])
    = mkResponse 404 "application/json" (JsonData (JObj [("error", JStr "Key not found")]))
  ∧ fst (GetCacheValue bare_process empty_value plain_get "k" [])
    ≠ mkResponse 200 "application/json"
        (JsonData (JObj [("key", JStr "k"); ("value", JStr "")])).
Proof. repeat split. discriminate. Qed.

(** C10: a key whose stored value is the empty string gets 404
    [Key not found]: the value retrieved is tested for truth, and the empty
    string is false. *)
Theorem empty_value_is_key_not_found p g request client key t :
  redis_client g = Some client →
  redis.get_outcome client key = Return (Some "") →
  GetCacheValue p g request key t =
    (mkResponse 404 "application/json"
       (JsonData (JObj [("error", JStr "Key not found")])), t ++ [RedisGet key]).
Proof. intros Hclient Hget. rewrite GetCacheValue_run, Hclient, Hget. reflexivity. Qed.

Lemma empty_value_is_key_not_found_witness :
  GetCacheValue bare_process empty_value plain_get "k" [] =
    (mkResponse 404 "application/json"
       (JsonData (JObj [("error", JStr "Key not found")])), [RedisGet "k"]).
Proof.
  apply (empty_value_is_key_not_found bare_process empty_value plain_get
           (redis.serving {["k" := ""]}) "k" []); reflexivity.
Defined.

(** ** The users *)

(** C5: for every JSON body [CreateUser] answers 201 with the message
    [User created successfully] and the body itself under [user]; nothing
    in the body is inspected and no collaborator is called. *)
Theorem create_user_echoes p g body t :
  CreateUser p g body t =
    (mkResponse 201 "application/json"
       (JsonData (JObj [("message", JStr "User created successfully"); ("user", body)])), t)
  ∧ response_field "message" (fst (CreateUser p g body t)) = Some (JStr "User created successfully")
  ∧ response_field "user" (fst (CreateUser p g body t)) = Some body.
Proof. repeat split. Qed.

(** C6: [ListUsers] answers 200 with a list of two users whose first is
    John Doe, whatever the process, the handles and the request body are;
    it performs no effect, so a second call gives the same response
    again. *)
Theorem list_users_idempotent p g body p' g' body' t :
  let first_call := ListUsers p g body t in
  let second_call := ListUsers p' g' body' (snd first_call) in
  snd first_call = t
  ∧ second_call = first_call
  ∧ status_code (fst first_call) = 200
  ∧ ∃ second, response_field "users" (fst first_call) = Some (JList [john_doe; second]).
Proof. repeat split. eexists. reflexivity. Qed.

(** ** GetHealth *)


(** ** Failure responses *)

(** Where the route serves the method, the reply is the response of
    [handle] as it goes on the wire. *)
Lemma wsgi_app_served p g request ep t :
  serves ep (method request) = true →
  fst (wsgi_app p g request ep t) = on_the_wire (method request) (fst (handle p g request ep t)).
Proof.
  intros Hserves. unfold wsgi_app, handle, full_dispatch_request, handle_user_exception.
  rewrite Hserves.
  destruct (view_function p g request ep t) as [[rv|e] t'].
  - destruct (make_response rv) as [r|e]; [reflexivity|].
    destruct (http_code e); reflexivity.
  - destruct (http_code e); reflexivity.
Qed.

(** C8 (amended): every failure reply carries a JSON envelope with an
    [error] string, except: a reply to HEAD, which has no body, among
    them the 500 for HEAD on [/api/users], which [users] does not answer;
    the 405 for a method the route does not serve; and the reply to a
    [CreateUser] whose body [get_json] rejects, which is the dispatch
    layer's own page for the exception [get_json] raised, of that
    exception's code. *)
Theorem failure_replies p g request ep t :
  400 ≤ reply_status (fst (wsgi_app p g request ep t)) →
  json_error_reply (fst (wsgi_app p g request ep t))
  ∨ (method request = HEAD
     ∧ body (fst (wsgi_app p g request ep t)) = None
     ∧ (ep = ep_users → fst (wsgi_app p g request ep t) = mkReply 500 "text/html" None))
  ∨ (serves ep (method request) = false
     ∧ fst (wsgi_app p g request ep t) = mkReply 405 "text/html" (Some ErrorPage))
  ∨ (ep = ep_users ∧ method request = POST
     ∧ ∃ e, json_outcome request = Raise e
            ∧ users request t = (Raise e, t)
            ∧ fst (wsgi_app p g request ep t)
              = mkReply (default 500 (http_code e)) "text/html" (Some ErrorPage)).
Proof.
  intros Hcode.
  destruct (serves ep (method request)) eqn:Hserves.
  2:{ right; right; left. split; [reflexivity|].
      unfold wsgi_app. rewrite Hserves.
      destruct request as [[] body]; destruct ep;
        try (vm_compute in Hserves; discriminate Hserves); reflexivity. }
  rewrite wsgi_app_served in * by exact Hserves.
  destruct (decide (method request = HEAD)) as [Hhead | Hhead].
  { right; left. split; [exact Hhead|]. rewrite Hhead. split; [reflexivity|].
    intros ->. destruct request as [m body]. simpl in Hhead. subst m. reflexivity. }
  assert (∀ r, on_the_wire (method request) r =
               mkReply (status_code r) (mimetype r) (Some (data r))) as Hwire.
  { intros r. unfold on_the_wire. rewrite bool_decide_eq_false_2 by exact Hhead. reflexivity. }
  rewrite Hwire in *. simpl in Hcode.
  destruct ep as [| | |key].
  - simpl in Hcode. lia.
  - left. change (handle p g request ep_ready t) with (GetReadiness p g request t) in *.
    rewrite GetReadiness_response in *.
    destruct (raised (cache_probe g)), (raised (relational_probe g));
      simpl in Hcode; try lia; (split; [reflexivity | eexists _, _; split; reflexivity]).
  - destruct request as [m body]. simpl in Hhead, Hserves.
    destruct m; try (vm_compute in Hserves; discriminate Hserves); try congruence.
    + simpl in Hcode. lia.
    + destruct body as [j | e].
      * simpl in Hcode. lia.
      * right; right; right. repeat split. exists e. repeat split.
  - left. change (handle p g request (ep_cache key) t) with (GetCacheValue p g request key t) in *.
    rewrite GetCacheValue_run in *.
    destruct (redis_client g) as [client|]; simpl in *.
    + destruct (redis.get_outcome client key) as [value | e]; simpl in *.
      * destruct (truthy value); simpl in *; [lia|].
        split; [reflexivity | eexists _, _; split; reflexivity].
      * split; [reflexivity | eexists _, _; split; reflexivity].
    + split; [reflexivity | eexists _, _; split; reflexivity].
Qed.

Lemma failure_replies_witness :
  fst (wsgi_app bare_process not_initialised form_post ep_users [])
  = mkReply 415 "text/html" (Some ErrorPage).
Proof.
  destruct (failure_replies bare_process not_initialised form_post ep_users [])
    as [[Hjson _] | [(Hhead & _) | [(Hserves & _) | (_ & _ & e & Hraise & _ & Hreply)]]].
  - simpl. lia.
  - discriminate Hjson.
  - discriminate Hhead.
  - discriminate Hserves.
  - injection Hraise as <-. exact Hreply.
Defined.

(** C8 as stated fails: a [CreateUser] with a malformed body is answered
    400 by the dispatch layer's own error response, which is not JSON. *)
Lemma malformed_body_gets_an_error_page :
  method malformed_post ∈ methods ep_users
  ∧ users malformed_post [] = (Raise BadRequest, [])
  ∧ fst (handle bare_process not_initialised malformed_post ep_users [])
    = mkResponse 400 "text/html" ErrorPage
  ∧ ¬ error_envelope (fst (handle bare_process not_initialised malformed_post ep_users []))
  ∧ fst (wsgi_app bare_process not_initialised malformed_post ep_users [])
    = mkReply 400 "text/html" (Some ErrorPage)
  ∧ ¬ json_error_reply (fst (wsgi_app bare_process not_initialised malformed_post ep_users [])).
Proof.
  split; [apply list_elem_of_further, list_elem_of_here|].
  repeat split; intros [Hmime _]; discriminate Hmime.
Qed.

(** ** Start-up *)

Ltac unfold_startup :=
  unfold main, init_connections, attempt, call, lift, set_redis_client,
    set_postgres_conn, int, getenv_or, globals_at_serving, imported,
    mbind, Startup_bind, mret, Startup_ret in *.

Ltac run_startup :=
  unfold_startup; simpl in *; simplify_eq/=;
  repeat (case_match; simplify_eq/=); rewrite <- ?app_assoc; simpl.

(** What [init_connections] does, by the outcome of its three library
    calls. *)
Lemma init_connections_run lib environ g log :
  let redis_host := os.getenv environ "REDIS_HOST" "localhost" in
  let pg := Connect (os.getenv environ "POSTGRES_HOST" "localhost")
                    (os.getenv environ "POSTGRES_DB" "devops_app")
                    (os.getenv environ "POSTGRES_USER" "postgres")
                    (os.getenv environ "POSTGRES_PASSWORD" "password") in
  let failed e := LogFailure ("Failed to initialize connections: " +:+ str e) in
  init_connections lib environ (g, log) =
    (Return tt,
     match int lib (getenv_or environ "REDIS_PORT" 6379) with
     | Raise e => (g, log ++ [failed e])
     | Return port =>
         match new_redis lib redis_host port true with
         | Raise e => (g, log ++ [NewRedis redis_host port true; failed e])
         | Return client =>
             match connect lib (os.getenv environ "POSTGRES_HOST" "localhost")
                     (os.getenv environ "POSTGRES_DB" "devops_app")
                     (os.getenv environ "POSTGRES_USER" "postgres")
                     (os.getenv environ "POSTGRES_PASSWORD" "password") with
             | Raise e =>
                 (mkGlobals (Some client) (postgres_conn g),
                  log ++ [NewRedis redis_host port true; pg; failed e])
             | Return conn =>
                 (mkGlobals (Some client) (Some conn),
                  log ++ [NewRedis redis_host port true; pg;
                          LogInfo "Database connections initialized"])
             end
         end
     end).
Proof.
  intros redis_host pg failed. subst redis_host pg failed.
  unfold init_connections, attempt, call, lift, set_redis_client, set_postgres_conn,
    mbind, Startup_bind, mret, Startup_ret.
  simpl.
  destruct (int lib (getenv_or environ "REDIS_PORT" 6379)) as [port|e]; simpl; [|reflexivity].
  destruct (new_redis lib _ port true) as [client|e]; simpl;
    [|rewrite <- ?app_assoc; reflexivity].
  destruct (connect lib _ _ _ _) as [conn|e]; simpl; rewrite <- ?app_assoc; reflexivity.
Qed.

(** X1: [init_connections] never raises.  It ends with exactly one log
    line.  When [int], the [redis.Redis] constructor and
    [psycopg2.connect] all return, the line is the info line and the two
    globals are the client and the connection they returned; otherwise
    the line is [Failed to initialize connections: ] followed by [str] of
    the first exception one of them raised, and [postgres_conn] is what it
    was before. *)
Theorem init_connections_logs_once lib environ g log :
  ∃ g' calls line,
    init_connections lib environ (g, log) = (Return tt, (g', log ++ calls ++ [line]))
    ∧ forallb (λ ef, negb (is_log ef)) calls = true
    ∧ match startup_calls lib environ with
      | Return (client, conn) =>
          line = LogInfo "Database connections initialized"
          ∧ g' = mkGlobals (Some client) (Some conn)
      | Raise e =>
          line = LogFailure ("Failed to initialize connections: " +:+ str e)
          ∧ postgres_conn g' = postgres_conn g
      end.
Proof.
  rewrite init_connections_run. unfold startup_calls.
  destruct (int lib _) as [port|e]; simpl.
  { destruct (new_redis lib _ port true) as [client|e]; simpl.
    - destruct (connect lib _ _ _ _) as [conn|e]; simpl.
      + eexists _, [_; _], _. split; [reflexivity|]. split; [reflexivity|].
        split; reflexivity.
      + eexists _, [_; _], _. split; [reflexivity|]. split; [reflexivity|].
        split; reflexivity.
    - eexists _, [_], _. split; [reflexivity|]. split; [reflexivity|].
      split; reflexivity. }
  eexists _, [], _. split; [reflexivity|]. split; [reflexivity|]. split; reflexivity.
Qed.

(** X2: when the module is run as a script, requests are served with no
    handle, with the Redis handle alone, or with both: never with
    [postgres_conn] set and [redis_client] [None]; and both are set
    exactly when the three library calls of [init_connections] returned. *)
Theorem serving_handles lib environ :
  let g := globals_at_serving lib environ in
  (is_Some (postgres_conn g) → is_Some (redis_client g))
  ∧ (is_Some (postgres_conn g) ↔
       ∃ port client conn,
         int lib (getenv_or environ "REDIS_PORT" 6379) = Return port
         ∧ new_redis lib (os.getenv environ "REDIS_HOST" "localhost") port true = Return client
         ∧ connect lib (os.getenv environ "POSTGRES_HOST" "localhost")
             (os.getenv environ "POSTGRES_DB" "devops_app")
             (os.getenv environ "POSTGRES_USER" "postgres")
             (os.getenv environ "POSTGRES_PASSWORD" "password") = Return conn
         ∧ g = mkGlobals (Some client) (Some conn)).
Proof.
  unfold globals_at_serving, imported. rewrite init_connections_run. simpl.
  destruct (int lib _) as [port|e] eqn:Hint; simpl.
  2:{ split; [intros [? ?]; discriminate|].
      split; [intros [? ?]; discriminate | intros (? & ? & ? & ? & _); discriminate]. }
  destruct (new_redis lib _ port true) as [client|e] eqn:Hredis; simpl.
  2:{ split; [intros [? ?]; discriminate|].
      split; [intros [? ?]; discriminate|].
      intros (port' & ? & ? & Hp & Hr & _). congruence. }
  destruct (connect lib _ _ _ _) as [conn|e] eqn:Hconnect; simpl.
  - split; [eauto|]. split; [intros _; eauto 10 | eauto].
  - split; [eauto|].
    split; [intros [? ?]; discriminate|].
    intros (? & ? & ? & ? & ? & ? & _). congruence.
Qed.

Lemma serving_handles_witness :
  is_Some (redis_client (globals_at_serving everything_up ∅)).
Proof.
  apply (serving_handles everything_up ∅). eexists. reflexivity.
Defined.

(** X3: when [psycopg2.connect] raises at start-up, the Redis client
    stays assigned and [postgres_conn] stays [None]; [/ready] then pings
    Redis and never calls PostgreSQL, so it answers by the ping alone:
    [ready] when the ping returns. *)
Theorem connect_failure_is_invisible_to_readiness lib environ p request t port client e :
  int lib (getenv_or environ "REDIS_PORT" 6379) = Return port →
  new_redis lib (os.getenv environ "REDIS_HOST" "localhost") port true = Return client →
  connect lib (os.getenv environ "POSTGRES_HOST" "localhost")
    (os.getenv environ "POSTGRES_DB" "devops_app")
    (os.getenv environ "POSTGRES_USER" "postgres")
    (os.getenv environ "POSTGRES_PASSWORD" "password") = Raise e →
  globals_at_serving lib environ = mkGlobals (Some client) None
  ∧ GetReadiness p (globals_at_serving lib environ) request t =
      match redis.ping_outcome client with
      | Return _ => (ready, t ++ [RedisPing])
      | Raise e' =>
          (not_ready e', t ++ [RedisPing; LogError ("Readiness check failed: " +:+ str e')])
      end.
Proof.
  intros Hint Hredis Hconnect.
  assert (globals_at_serving lib environ = mkGlobals (Some client) None) as ->.
  { unfold globals_at_serving, imported. rewrite init_connections_run.
    simpl. rewrite Hint, Hredis, Hconnect. reflexivity. }
  split; [reflexivity|].
  run_view; reflexivity.
Qed.

Lemma connect_failure_is_invisible_to_readiness_witness :
  GetReadiness bare_process (globals_at_serving postgres_refuses ∅) plain_get [] =
    (ready, [RedisPing]).
Proof.
  apply (connect_failure_is_invisible_to_readiness postgres_refuses ∅ bare_process plain_get []
           6379 (redis.serving ∅) (Error "could not connect to server: Connection refused"));
    reflexivity.
Defined.

(** X4: when [int] rejects [REDIS_PORT] or the [redis.Redis] constructor
    raises, [init_connections] never calls [psycopg2.connect] and leaves
    both globals as they were; served from there, every cache lookup
    answers 503 [Redis not available] and [/ready] answers [ready]
    without probing anything. *)
Theorem no_redis_client_no_connection lib environ e :
  int lib (getenv_or environ "REDIS_PORT" 6379) = Raise e
  ∨ (∃ port, int lib (getenv_or environ "REDIS_PORT" 6379) = Return port
             ∧ new_redis lib (os.getenv environ "REDIS_HOST" "localhost") port true = Raise e) →
  (∀ g log, ∃ calls,
     init_connections lib environ (g, log) =
       (Return tt,
        (g, log ++ calls ++ [LogFailure ("Failed to initialize connections: " +:+ str e)]))
     ∧ forallb (λ ef, negb (is_connect ef)) calls = true)
  ∧ (∀ p request key t,
       GetCacheValue p (globals_at_serving lib environ) request key t =
         (mkResponse 503 "application/json"
            (JsonData (JObj [("error", JStr "Redis not available")])), t))
  ∧ (∀ p request t, GetReadiness p (globals_at_serving lib environ) request t = (ready, t)).
Proof.
  intros Hcause.
  assert (∀ g log, ∃ calls,
     init_connections lib environ (g, log) =
       (Return tt,
        (g, log ++ calls ++ [LogFailure ("Failed to initialize connections: " +:+ str e)]))
     ∧ forallb (λ ef, negb (is_connect ef)) calls = true) as Hrun.
  { intros g log. rewrite init_connections_run.
    destruct Hcause as [-> | (port & -> & Hredis)]; simpl.
    - exists []. split; reflexivity.
    - rewrite Hredis. eexists [_]. split; reflexivity. }
  split; [exact Hrun|].
  unfold globals_at_serving, imported.
  destruct (Hrun (mkGlobals None None) []) as (calls & -> & _). simpl.
  split; reflexivity.
Qed.

Lemma no_redis_client_no_connection_witness :
  GetReadiness bare_process (globals_at_serving rejecting_int bad_redis_port) plain_get [] =
    (ready, [])
  ∧ GetReadiness bare_process (globals_at_serving redis_constructor_raises ∅) plain_get [] =
    (ready, []).
Proof.
  split.
  - apply (no_redis_client_no_connection rejecting_int bad_redis_port
             (Error "invalid literal for int() with base 10: 'abc'")).
    left. reflexivity.
  - apply (no_redis_client_no_connection redis_constructor_raises ∅
             (Error "Port must be a positive integer")).
    right. exists 6379. split; reflexivity.
Defined.

(** [init_connections] does not start the server. *)
Lemma init_connections_no_app_run lib environ g log :
  forallb (λ ef, negb (is_app_run ef)) log = true →
  forallb (λ ef, negb (is_app_run ef)) (snd (snd (init_connections lib environ (g, log)))) = true.
Proof.
  intros Hlog. rewrite init_connections_run. simpl.
  destruct (int lib _); simpl; [destruct (new_redis lib _ _ _); simpl;
    [destruct (connect lib _ _ _ _); simpl|]|];
    rewrite forallb_app, Hlog; reflexivity.
Qed.

(** X5: whatever the collaborators do at start-up, the script goes on to
    [app.run], once and last, on host [0.0.0.0] with [debug=False], at
    the port [int] makes of [PORT], 5000 when [PORT] is unset, and with
    the globals [init_connections] left. *)
Theorem main_serves_whatever_the_collaborators lib environ port :
  int lib (getenv_or environ "PORT" 5000) = Return port →
  ∃ effects,
    main lib environ imported =
      (run_outcome lib "0.0.0.0" port false,
       (globals_at_serving lib environ, effects ++ [AppRun "0.0.0.0" port false]))
    ∧ forallb (λ ef, negb (is_app_run ef)) effects = true
    ∧ (environ !! "PORT" = None → port = 5000).
Proof.
  intros Hport.
  pose proof (init_connections_no_app_run lib environ (mkGlobals None None) [] eq_refl) as Hnone.
  pose proof (init_connections_run lib environ (mkGlobals None None) []) as Hrun.
  simpl in Hrun.
  destruct (init_connections lib environ (mkGlobals None None, [])) as [r [g' effects]] eqn:Hinit.
  assert (r = Return tt) as -> by congruence.
  exists effects.
  split; [|split].
  - unfold main, globals_at_serving, imported, mbind, Startup_bind, lift, call.
    rewrite Hinit, Hport. reflexivity.
  - exact Hnone.
  - intros Hunset. unfold int, getenv_or in Hport. rewrite Hunset in Hport. congruence.
Qed.

Lemma main_serves_whatever_the_collaborators_witness :
  ∃ effects,
    main postgres_refuses ∅ imported =
      (Return tt,
       (globals_at_serving postgres_refuses ∅, effects ++ [AppRun "0.0.0.0" 5000 false])).
Proof.
  destruct (main_serves_whatever_the_collaborators postgres_refuses ∅ 5000)
    as (effects & Hrun & _); [reflexivity|].
  exists effects. exact Hrun.
Defined.

(** X6: when [PORT] is set to something [int] rejects, the script raises
    that exception after [init_connections] has run: [app.run] is never
    called, and the state is the one [init_connections] left. *)
Theorem rejected_port_aborts_after_init lib environ s e :
  environ !! "PORT" = Some s →
  int_of_str lib s = Raise e →
  main lib environ imported = (Raise e, snd (init_connections lib environ imported))
  ∧ forallb (λ ef, negb (is_app_run ef)) (snd (snd (main lib environ imported))) = true.
Proof.
  intros Henv Hint.
  pose proof (init_connections_no_app_run lib environ (mkGlobals None None) [] eq_refl) as Hnone.
  pose proof (init_connections_run lib environ (mkGlobals None None) []) as Hrun.
  simpl in Hrun.
  assert (main lib environ imported = (Raise e, snd (init_connections lib environ imported)))
    as Hmain.
  { unfold main, imported, mbind, Startup_bind, lift, int, getenv_or.
    rewrite Hrun, Henv, Hint. reflexivity. }
  split; [exact Hmain|].
  rewrite Hmain. exact Hnone.
Qed.

Lemma rejected_port_aborts_after_init_witness :
  main rejecting_int bad_port imported =
    (Raise (Error "invalid literal for int() with base 10: 'abc'"),
     snd (init_connections rejecting_int bad_port imported)).
Proof.
  apply (rejected_port_aborts_after_init rejecting_int bad_port "abc"
           (Error "invalid literal for int() with base 10: 'abc'")); reflexivity.
Defined.

(** ** More on the views *)

(** X7: per request [readiness_check] opens at most one cursor and
    executes nothing but [SELECT 1].  The cursor is closed when the
    request is answered 200; when [execute] raises, the cursor that was
    opened is never closed. *)
Theorem readiness_cursor_lifecycle p g request t :
  ∃ added,
    snd (GetReadiness p g request t) = t ++ added
    ∧ (statements added = [] ∨ statements added = ["SELECT 1"])
    ∧ (count closes_cursor added ≤ count opens_cursor added ≤ 1)%nat
    ∧ (status_code (fst (GetReadiness p g request t)) = 200 →
       count closes_cursor added = count opens_cursor added)
    ∧ (∀ conn cur e,
         raised (cache_probe g) = None →
         postgres_conn g = Some conn →
         psycopg2.cursor_outcome conn = Return cur →
         psycopg2.execute_outcome cur "SELECT 1" = Raise e →
         count opens_cursor added = 1%nat ∧ count closes_cursor added = 0%nat).
Proof.
  destruct g as [[client|] [conn|]]; run_view;
    (give_added; repeat split; try (vm_compute; lia); auto;
     try (intros; simplify_eq/=; first [congruence | split; reflexivity])).
Qed.

Lemma readiness_cursor_lifecycle_witness :
  ∃ added,
    snd (GetReadiness bare_process query_fails plain_get []) = added
    ∧ count opens_cursor added = 1%nat ∧ count closes_cursor added = 0%nat.
Proof.
  destruct (readiness_cursor_lifecycle bare_process query_fails plain_get [])
    as (added & Hadded & _ & _ & _ & Hleak).
  exists added. split; [exact Hadded|].
  apply (Hleak (failing_query (Error "server closed the connection unexpectedly"))
           (psycopg2.mkCursor (λ _, Raise (Error "server closed the connection unexpectedly"))
              (Return tt))
           (Error "server closed the connection unexpectedly")); reflexivity.
Defined.

(** X8: [readiness_check] logs exactly when it answers with an [error]
    field, one line, and the line is [Readiness check failed: ] followed
    by that very error string; a 200 logs nothing. *)
Theorem readiness_log_matches_response p g request t :
  ∃ added,
    snd (GetReadiness p g request t) = t ++ added
    ∧ log_lines added =
        match response_field "error" (fst (GetReadiness p g request t)) with
        | Some (JStr msg) => ["Readiness check failed: " +:+ msg]
        | _ => []
        end
    ∧ (status_code (fst (GetReadiness p g request t)) = 200 ↔ log_lines added = []).
Proof.
  destruct g as [[client|] [conn|]]; run_view;
    (give_added; split; [reflexivity|]; split; intros; first [reflexivity | discriminate]).
Qed.

Lemma readiness_log_matches_response_witness :
  ∃ added,
    snd (GetReadiness bare_process all_up plain_get []) = added ∧ log_lines added = [].
Proof.
  destruct (readiness_log_matches_response bare_process all_up plain_get [])
    as (added & Hadded & _ & Hquiet).
  exists added. split; [exact Hadded|]. apply Hquiet. reflexivity.
Defined.

Ltac by_cause :=
  repeat match goal with
         | |- _ ∧ _ => split
         | |- _ ↔ _ => split
         | |- _ → _ => intro
         | H : ∃ _, _ |- _ => destruct H
         | H : _ ∧ _ |- _ => destruct H
         | H : _ ∨ _ |- _ => destruct H
         end;
  simplify_eq/=; try congruence; eauto 10.

(** X9: each status of [GetCacheValue] has one cause.  503 means the
    handle is [None] and nothing else; a handle whose lookup raises gives
    500; 404 means the lookup returned [None] or the empty string; 200
    means it returned a non-empty string, which is then the [value] beside
    the [key] asked for.  There is no other status, and every answer but
    200 has an [error] string and no [value]. *)
Theorem cache_status_by_cause p g request key t :
  let r := fst (GetCacheValue p g request key t) in
  (status_code r = 503 ↔ redis_client g = None)
  ∧ (status_code r = 500 ↔
       ∃ client e, redis_client g = Some client ∧ redis.get_outcome client key = Raise e)
  ∧ (status_code r = 404 ↔
       ∃ client, redis_client g = Some client
                 ∧ (redis.get_outcome client key = Return None
                    ∨ redis.get_outcome client key = Return (Some "")))
  ∧ (status_code r = 200 ↔
       ∃ client v, redis_client g = Some client
                   ∧ redis.get_outcome client key = Return (Some v) ∧ v ≠ ""
                   ∧ response_field "key" r = Some (JStr key)
                   ∧ response_field "value" r = Some (JStr v))
  ∧ (status_code r = 200 ∨ status_code r = 404 ∨ status_code r = 500 ∨ status_code r = 503)
  ∧ (status_code r ≠ 200 →
       response_field "value" r = None ∧ ∃ msg, response_field "error" r = Some (JStr msg)).
Proof.
  intros r. subst r. rewrite GetCacheValue_run.
  destruct (redis_client g) as [client|]; simpl.
  2:{ by_cause. }
  destruct (redis.get_outcome client key) as [[v|]|e] eqn:Hget; simpl.
  - destruct (String.eqb_spec v "") as [->|Hne]; simpl; by_cause.
  - by_cause.
  - by_cause.
Qed.

Lemma cache_status_by_cause_witness :
  redis_client (mkGlobals None (Some psycopg2.healthy)) = None.
Proof.
  apply (cache_status_by_cause bare_process (mkGlobals None (Some psycopg2.healthy))
           plain_get "k" []).
  reflexivity.
Defined.

(** X10: [users] has a branch for GET and for POST only: called with
    any other method it falls off its end and returns [None] without any
    effect.  Of those methods the route serves HEAD alone, because it
    declares GET: the reply is then the dispatch layer's 500, without a
    body, after the line [Exception on /api/users [HEAD]] has been logged.
    PUT, PATCH and DELETE are answered 405 and [users] is not called. *)
Theorem users_other_methods p g request t :
  method request ≠ GET →
  method request ≠ POST →
  users request t = (Return NoneValue, t)
  ∧ (method request = HEAD →
       wsgi_app p g request ep_users t =
         (mkReply 500 "text/html" None, t ++ [LogError "Exception on /api/users [HEAD]"]))
  ∧ (method request ≠ HEAD →
       wsgi_app p g request ep_users t = (mkReply 405 "text/html" (Some ErrorPage), t)).
Proof.
  intros Hget Hpost. destruct request as [m body]. simpl in *.
  destruct m; try contradiction; (split; [reflexivity|]); split;
    intros Hm; first [reflexivity | discriminate Hm | contradiction].
Qed.

Lemma users_other_methods_witness :
  wsgi_app bare_process not_initialised head_request ep_users [] =
    (mkReply 500 "text/html" None, [LogError "Exception on /api/users [HEAD]"])
  ∧ wsgi_app bare_process not_initialised put_request ep_users [] =
    (mkReply 405 "text/html" (Some ErrorPage), []).
Proof.
  split.
  - apply (users_other_methods bare_process not_initialised head_request []);
      first [discriminate | reflexivity].
  - apply (users_other_methods bare_process not_initialised put_request []); discriminate.
Defined.

(** X11: the statuses each route can answer a request of a method it
    declares: [/health] 200; [/ready] 200 or 503; [/api/users] 200 for
    GET, 201 for POST, or the code of the exception [get_json] raised (500
    when it carries none); [/api/cache/<key>] 200, 404, 500 or 503. *)
Theorem statuses_by_route p g request ep t :
  method request ∈ methods ep →
  let code := status_code (fst (handle p g request ep t)) in
  match ep with
  | ep_health => code = 200
  | ep_ready => code = 200 ∨ code = 503
  | ep_users =>
      match method request, json_outcome request with
      | GET, _ => code = 200
      | _, Return _ => code = 201
      | _, Raise e => code = default 500 (http_code e)
      end
  | ep_cache _ => code = 200 ∨ code = 404 ∨ code = 500 ∨ code = 503
  end.
Proof.
  intros Hmethod code. subst code.
  destruct ep as [| | |key].
  - reflexivity.
  - change (handle p g request ep_ready t) with (GetReadiness p g request t).
    rewrite GetReadiness_response.
    destruct (raised (cache_probe g)), (raised (relational_probe g)); simpl; auto.
  - destruct request as [m body].
    apply list_elem_of_In in Hmethod. simpl in Hmethod.
    destruct Hmethod as [<- | [<- | []]]; [reflexivity|].
    destruct body; reflexivity.
  - apply (cache_status_by_cause p g request key t).
Qed.

Lemma statuses_by_route_witness :
  status_code (fst (handle bare_process not_initialised malformed_post ep_users [])) = 400.
Proof.
  apply (statuses_by_route bare_process not_initialised malformed_post ep_users []).
  apply list_elem_of_further, list_elem_of_here.
Defined.

(** ** The timestamp determines the clock reading *)

Section IsoformatInjective.

Import datetime.

Lemma append_cons (c : ascii) (s t : string) : String c s +:+ t = String c (s +:+ t).
Proof. reflexivity. Qed.

Lemma length_append (s1 s2 : string) :
  String.length (s1 +:+ s2) = (String.length s1 + String.length s2)%nat.
Proof.
  induction s1 as [|c s1 IH]; [reflexivity | rewrite append_cons; simpl; rewrite IH; reflexivity].
Qed.

Lemma append_empty_r (s : string) : s +:+ "" = s.
Proof.
  induction s as [|c s IH]; [reflexivity | rewrite append_cons, IH; reflexivity].
Qed.

Lemma append_inj_length (s1 s2 t1 t2 : string) :
  String.length s1 = String.length s2 →
  s1 +:+ t1 = s2 +:+ t2 →
  s1 = s2 ∧ t1 = t2.
Proof.
  revert s2. induction s1 as [|c s1 IH]; intros [|c' s2] Hlen Heq;
    simpl in Hlen; try discriminate.
  - split; [reflexivity | exact Heq].
  - rewrite !append_cons in Heq. injection Heq as -> Heq. injection Hlen as Hlen.
    destruct (IH s2 Hlen Heq) as [-> ->]. split; reflexivity.
Qed.

Lemma length_fixed (w : nat) (n : N) : String.length (fixed w n) = w.
Proof.
  revert n. induction w as [|w IH]; intros n; simpl; [reflexivity|].
  rewrite length_append, IH. simpl. lia.
Qed.

Lemma digit_inj (n m : N) : digit n = digit m → (n mod 10 = m mod 10)%N.
Proof.
  unfold digit. intros Heq.
  assert (n mod 10 < 10)%N by (apply N.mod_lt; discriminate).
  assert (m mod 10 < 10)%N by (apply N.mod_lt; discriminate).
  apply (f_equal N_of_ascii) in Heq.
  rewrite !N_ascii_embedding in Heq by lia. lia.
Qed.

Lemma fixed_inj (w : nat) (n m : N) :
  (n < 10 ^ N.of_nat w)%N → (m < 10 ^ N.of_nat w)%N →
  fixed w n = fixed w m → n = m.
Proof.
  revert n m. induction w as [|w IH]; intros n m Hn Hm Heq.
  - simpl in Hn, Hm. lia.
  - rewrite Nat2N.inj_succ, N.pow_succ_r' in Hn, Hm.
    simpl in Heq.
    apply append_inj_length in Heq as [Hhigh Hlow]; [|rewrite !length_fixed; reflexivity].
    injection Hlow as Hlow. apply digit_inj in Hlow.
    assert (n / 10 = m / 10)%N as Hdiv.
    { apply IH; [apply N.Div0.div_lt_upper_bound; exact Hn
                | apply N.Div0.div_lt_upper_bound; exact Hm | exact Hhigh]. }
    rewrite (N.div_mod n 10), (N.div_mod m 10) by discriminate.
    rewrite Hdiv, Hlow. reflexivity.
Qed.

Lemma zero_filled_inj (w : nat) (n m : N) (s1 s2 : string) :
  (n < 10 ^ N.of_nat w)%N → (m < 10 ^ N.of_nat w)%N →
  zero_filled w n +:+ s1 = zero_filled w m +:+ s2 → n = m ∧ s1 = s2.
Proof.
  intros Hn Hm Heq. rewrite !zero_filled_in_range in Heq by assumption.
  apply append_inj_length in Heq as [Hfixed Hrest]; [|rewrite !length_fixed; reflexivity].
  split; [apply (fixed_inj w); assumption | exact Hrest].
Qed.

Lemma isoformat_inj (d1 d2 : datetime) : isoformat d1 = isoformat d2 → d1 = d2.
Proof.
  intros Heq.
  destruct (fields_in_range d1) as (Hy1 & Hmo1 & Hd1 & Hh1 & Hmi1 & Hs1 & Hus1).
  destruct (fields_in_range d2) as (Hy2 & Hmo2 & Hd2 & Hh2 & Hmi2 & Hs2 & Hus2).
  unfold isoformat in Heq.
  apply zero_filled_inj in Heq as [Hy Heq]; [|assumption..]. injection Heq as Heq.
  apply zero_filled_inj in Heq as [Hmo Heq]; [|assumption..]. injection Heq as Heq.
  apply zero_filled_inj in Heq as [Hd Heq]; [|assumption..]. injection Heq as Heq.
  apply zero_filled_inj in Heq as [Hh Heq]; [|assumption..]. injection Heq as Heq.
  apply zero_filled_inj in Heq as [Hmi Heq]; [|assumption..]. injection Heq as Heq.
  apply zero_filled_inj in Heq as [Hs Heq]; [|assumption..].
  assert (microsecond d1 = microsecond d2) as Hus.
  { destruct (N.eqb_spec (microsecond d1) 0) as [E1|E1],
             (N.eqb_spec (microsecond d2) 0) as [E2|E2]; try discriminate.
    - congruence.
    - injection Heq as Heq.
      rewrite <- (append_empty_r (zero_filled 6 (microsecond d1))),
              <- (append_empty_r (zero_filled 6 (microsecond d2))) in Heq.
      apply zero_filled_inj in Heq as [Hus _]; assumption. }
  destruct d1, d2; simpl in *; subst.
  f_equal. apply proof_irrel.
Qed.

Lemma isoformat_length (d : datetime) :
  String.length (isoformat d) = if (microsecond d =? 0)%N then 19%nat else 26%nat.
Proof.
  destruct (fields_in_range d) as (Hy & Hmo & Hd & Hh & Hmi & Hs & Hus).
  unfold isoformat. rewrite !zero_filled_in_range by assumption.
  destruct (microsecond d =? 0)%N;
    repeat (rewrite length_append || rewrite length_fixed || simpl); reflexivity.
Qed.

End IsoformatInjective.

(** X12: the [timestamp] of [GetHealth] has 19 characters when the clock
    reading has no microseconds and 26 otherwise, and it determines the
    clock reading: two answers with the same timestamp were made at the
    same reading. *)
Theorem health_timestamp_identifies_clock p1 g1 request1 t1 p2 g2 request2 t2 :
  (∃ timestamp,
     response_field "timestamp" (fst (GetHealth p1 g1 request1 t1)) = Some (JStr timestamp)
     ∧ String.length timestamp
       = if (datetime.microsecond (utcnow p1) =? 0)%N then 19%nat else 26%nat)
  ∧ (response_field "timestamp" (fst (GetHealth p1 g1 request1 t1))
     = response_field "timestamp" (fst (GetHealth p2 g2 request2 t2)) →
     utcnow p1 = utcnow p2).
Proof.
  split.
  - eexists. split; [reflexivity | apply isoformat_length].
  - unfold response_field; simpl. intros Heq. apply isoformat_inj. congruence.
Qed.

Lemma health_timestamp_identifies_clock_witness :
  utcnow bare_process = utcnow (mkProcess {["APP_VERSION" := "2.0"]} midnight).
Proof.
  apply (health_timestamp_identifies_clock bare_process not_initialised plain_get []
           (mkProcess {["APP_VERSION" := "2.0"]} midnight) all_up plain_get []).
  reflexivity.
Defined.

(** ** The test suite *)

(** X13: four of the tests do not depend on the collaborators:
    [test_health_check], [test_readiness_check], [test_users_get] and
    [test_users_post] pass for every clock, environment and state of the
    handles.  [test_cache_endpoint_key_not_found] passes exactly when the
    handle is [None] or the lookup of [nonexistent] returns [None] or the
    empty string; with a handle whose lookup raises, the answer is 500 and
    the test fails.  In the state the test module finds, both globals
    [None] since [init_connections] only runs under [__main__], all five
    pass, [/ready] with 200 and the lookup with 503. *)
Theorem tests_and_collaborators p g :
  test_health_check p g = true
  ∧ test_readiness_check p g = true
  ∧ test_users_get p g = true
  ∧ test_users_post p g = true
  ∧ (test_cache_endpoint_key_not_found p g = true ↔
       redis_client g = None
       ∨ ∃ client, redis_client g = Some client
                   ∧ (redis.get_outcome client "nonexistent" = Return None
                      ∨ redis.get_outcome client "nonexistent" = Return (Some "")))
  ∧ (∀ client e, redis_client g = Some client →
       redis.get_outcome client "nonexistent" = Raise e →
       status_code (client_get p g (ep_cache "nonexistent")) = 500
       ∧ test_cache_endpoint_key_not_found p g = false)
  ∧ (test_cache_endpoint_key_not_found p (fst imported) = true
     ∧ status_code (client_get p (fst imported) ep_ready) = 200
     ∧ status_code (client_get p (fst imported) (ep_cache "nonexistent")) = 503).
Proof.
  split; [reflexivity|].
  split.
  { unfold test_readiness_check, client_get.
    change (handle p g ?r ep_ready []) with (GetReadiness p g r []).
    rewrite GetReadiness_response.
    destruct (raised (cache_probe g)), (raised (relational_probe g)); reflexivity. }
  split; [reflexivity|]. split; [reflexivity|].
  assert (test_cache_endpoint_key_not_found p (fst imported) = true
          ∧ status_code (client_get p (fst imported) ep_ready) = 200
          ∧ status_code (client_get p (fst imported) (ep_cache "nonexistent")) = 503)
    as Himported by (repeat split).
  unfold test_cache_endpoint_key_not_found, client_get.
  change (handle p g ?r (ep_cache ?k) []) with (GetCacheValue p g r k []).
  rewrite GetCacheValue_run.
  destruct (redis_client g) as [client|]; simpl.
  2:{ by_cause. }
  destruct (redis.get_outcome client "nonexistent") as [[v|]|e] eqn:Hget; simpl.
  - destruct (String.eqb_spec v "") as [->|Hne]; simpl; by_cause.
  - by_cause.
  - by_cause.
Qed.

Lemma tests_and_collaborators_witness :
  status_code (client_get bare_process redis_down (ep_cache "nonexistent")) = 500
  ∧ test_cache_endpoint_key_not_found bare_process redis_down = false.
Proof.
  destruct (tests_and_collaborators bare_process redis_down) as (_ & _ & _ & _ & _ & Hraises & _).
  apply (Hraises (unreachable (Error "Connection refused")) (Error "Connection refused"));
    reflexivity.
Defined.
